(** * The channel service of the tbears block manager

    A shallow embedding of [tbears/block_manager/channel_service.py]: the
    four message handlers of [ChannelInnerTask] ([create_icx_tx],
    [get_invoke_result], [get_tx_info], [get_block]), the Python values they
    handle, and the properties of the dispatcher proved about them.

    Python objects are modelled as follows.
    - A JSON-like Python value is a [pyval]; a [dict] is an association list
      in insertion order (the order [json.dumps] emits), an [int] is a [Z],
      a [str] is a [string] whose characters stand for the code points
      0..255.
    - A handler is a computation in the monad [M]: it threads the
      [ChannelInnerTask] object, may raise a Python exception, and records
      every call it makes on the ledger object [block_manager._block].
    - The handlers are coroutines that never await: each one runs from its
      first statement to its [return] (or to the exception it raises)
      without interleaving, so a handler is one transition of the task
      object.  The calls to [Logger.debug] have no part in the result and
      are left out.
    - Each handler is declared under the decorator [@message_queue_task].
      [create_icx_tx], [get_invoke_result], [get_tx_info] and [get_block]
      below are the bodies of the four coroutines, in which a failing
      subscript or a failing [json.dumps] raises.  The handlers as the
      message queue sees them are [mq_create_icx_tx], [mq_get_invoke_result],
      [mq_get_tx_info] and [mq_get_block]: the body under
      [message_queue_task], which lets no exception through and hands a
      [MessageQueueException] back in its place.  Where the body returns,
      the decorated handler returns the same tuple, and both leave the same
      task object.
    - The mapping a submission comes with is a [mapping]: [str] keys, and
      for each key either a JSON-like value or an object [json.dumps]
      rejects.  Floats are left out of the values.
    - The ledger object, the hash primitive [create_hash] and the integer
      constants of [message_code.Response] are not part of this file's
      source; the ledger is a record of query functions held by the block
      manager, the other two are parameters of the development. *)

From Stdlib Require Import ZArith List String Ascii Bool Lia.
From Stdlib Require Import DecimalString DecimalZ DecimalPos.
Import ListNotations.
Open Scope string_scope.
Open Scope Z_scope.

(** ** Python values *)

#[local] Set Warnings "-register-all".

Inductive pyval : Type :=
| PNone
| PBool (b : bool)
| PInt (z : Z)
| PStr (s : string)
| PList (items : list pyval)
| PDict (fields : list (string * pyval)).

(** A Python [dict] with [str] keys, in insertion order. *)
Definition pydict : Type := list (string * pyval).

(** [d[key]]: the value stored under [key], [None] when the subscript
    raises [KeyError]. *)
Fixpoint dict_lookup (d : pydict) (key : string) : option pyval :=
  match d with
  | [] => None
  | (k, v) :: d' => if String.eqb k key then Some v else dict_lookup d' key
  end.



(** [bool(d)] for a dict: a dict is true when it is not empty. *)
Definition dict_truthy (d : pydict) : bool :=
  match d with [] => false | _ :: _ => true end.

(** [bool(x)] for an optional dict ([None] is false). *)
Definition opt_truthy (r : option pydict) : bool :=
  match r with None => false | Some d => dict_truthy d end.

(** [s == v] for a [str] [s]: only an equal [str] compares equal. *)
Definition str_eq_val (s : string) (v : pyval) : bool :=
  match v with PStr s' => String.eqb s s' | _ => false end.

(** ** [json.dumps] with its default arguments *)

Definition dquote : ascii := "034"%char.
Definition backslash : ascii := "092"%char.

Definition hex_digit (n : nat) : ascii :=
  match n with
  | 0%nat => "0" | 1%nat => "1" | 2%nat => "2" | 3%nat => "3"
  | 4%nat => "4" | 5%nat => "5" | 6%nat => "6" | 7%nat => "7"
  | 8%nat => "8" | 9%nat => "9" | 10%nat => "a" | 11%nat => "b"
  | 12%nat => "c" | 13%nat => "d" | 14%nat => "e" | _ => "f"
  end%char.

(** One character of a string under [ensure_ascii=True]: the two-character
    escapes, [\u00xx] for everything else outside [' '..'~']. *)
Definition escape_char (c : ascii) : string :=
  let n := nat_of_ascii c in
  if Ascii.eqb c dquote then String backslash (String dquote EmptyString)
  else if Ascii.eqb c backslash then String backslash (String backslash EmptyString)
  else if Nat.eqb n 10 then String backslash "n"
  else if Nat.eqb n 13 then String backslash "r"
  else if Nat.eqb n 9 then String backslash "t"
  else if Nat.eqb n 8 then String backslash "b"
  else if Nat.eqb n 12 then String backslash "f"
  else if (Nat.ltb n 32 || Nat.ltb 126 n)%bool then
    String backslash
      (String "u" (String "0" (String "0"
        (String (hex_digit (n / 16)) (String (hex_digit (n mod 16)) EmptyString)))))
  else String c EmptyString.

Fixpoint escape_string (s : string) : string :=
  match s with
  | EmptyString => EmptyString
  | String c s' => escape_char c ++ escape_string s'
  end.

Definition json_str (s : string) : string :=
  String dquote (escape_string s ++ String dquote EmptyString).

Definition json_int (z : Z) : string :=
  NilZero.string_of_int (Z.to_int z).

Fixpoint json_dumps (v : pyval) : string :=
  match v with
  | PNone => "null"
  | PBool true => "true"
  | PBool false => "false"
  | PInt z => json_int z
  | PStr s => json_str s
  | PList items =>
      "[" ++
      (fix dumps_items (l : list pyval) : string :=
         match l with
         | [] => ""
         | x :: l' =>
             json_dumps x ++
             match l' with [] => "" | _ :: _ => ", " ++ dumps_items l' end
         end) items
      ++ "]"
  | PDict fields =>
      "{" ++
      (fix dumps_fields (l : list (string * pyval)) : string :=
         match l with
         | [] => ""
         | (k, x) :: l' =>
             json_str k ++ ": " ++ json_dumps x ++
             match l' with [] => "" | _ :: _ => ", " ++ dumps_fields l' end
         end) fields
      ++ "}"
  end.

Arguments json_dumps : simpl never.

(** [str.encode()]: the output of [json.dumps] is ASCII, its UTF-8 encoding
    is the same sequence of bytes. *)
Definition encode (s : string) : list Byte.byte := list_byte_of_string s.

(** ** The objects of the block manager *)

(** The ledger object [block_manager._block], seen through the five queries
    the handlers make on it.  Each query answers a dict or [None]. *)
Record Block : Type := {
  get_transaction : string -> option pydict;
  get_txresult : string -> option pydict;
  get_last_block : option pydict;
  get_block_by_hash : string -> option pydict;
  get_block_by_height : Z -> option pydict
}.

Record BlockManager : Type := {
  tx_queue : list pydict;
  _block : Block
}.

Record ChannelInnerTask : Type := {
  _conf : pydict;
  _block_manager : BlockManager;
  confirmed_tx_list : list pyval
}.

(** [ChannelInnerTask.__init__] *)
Definition init (conf : pydict) (block_manager : BlockManager) : ChannelInnerTask :=
  {| _conf := conf;
     _block_manager := block_manager;
     confirmed_tx_list := [] |}.

(** The integer constants of [message_code.Response] the handlers use. *)
Module message_code.
Record Response : Type := {
  success : Z;
  fail_tx_invalid_duplicated_hash : Z;
  fail_tx_not_invoked : Z;
  fail_tx_invalid_hash_not_match : Z;
  fail_wrong_block_hash : Z;
  fail_wrong_block_height : Z
}.
End message_code.

(** ** The handler monad: object state, exceptions, ledger calls *)

Inductive exn : Type :=
| KeyError (key : string)
| TypeError.

Inductive outcome (A : Type) : Type :=
| Returned (a : A)
| Raised (e : exn).
Arguments Returned {A} a.
Arguments Raised {A} e.

(** A call made on the ledger object. *)
Inductive ledger_call : Type :=
| Call_get_transaction (tx_hash : string)
| Call_get_txresult (tx_hash : string)
| Call_get_last_block
| Call_get_block_by_hash (block_hash : string)
| Call_get_block_by_height (block_height : Z).

Record World : Type := {
  self : ChannelInnerTask;
  calls : list ledger_call
}.

Definition M (A : Type) : Type := World -> outcome A * World.

Definition ret {A} (a : A) : M A := fun w => (Returned a, w).

Definition raise {A} (e : exn) : M A := fun w => (Raised e, w).

Definition bind {A B} (m : M A) (k : A -> M B) : M B :=
  fun w =>
    match m w with
    | (Returned a, w') => k a w'
    | (Raised e, w') => (Raised e, w')
    end.

Notation "x <- m ;; k" := (bind m (fun x => k))
  (at level 61, m at next level, right associativity).
Notation "m ;; k" := (bind m (fun _ => k))
  (at level 61, right associativity).

(** [self._block_manager] *)
Definition get_self_block_manager : M BlockManager :=
  fun w => (Returned (_block_manager (self w)), w).

(** A query on the ledger object: the answer comes from the ledger the
    block manager holds, and the call is appended to the record of calls. *)
Definition ask {A} (c : ledger_call) (q : Block -> A) : M A :=
  fun w =>
    (Returned (q (_block (_block_manager (self w)))),
     {| self := self w; calls := calls w ++ [c] |}).

(** [d[key]] in a handler: raises [KeyError] on a missing key. *)
Definition getitem (d : pydict) (key : string) : M pyval :=
  match dict_lookup d key with
  | Some v => ret v
  | None => raise (KeyError key)
  end.

(** [x[key]] where [x] is a dict or [None]: subscripting [None] raises
    [TypeError]. *)
Definition subscript (x : option pydict) (key : string) : M pyval :=
  match x with
  | Some d => getitem d key
  | None => raise TypeError
  end.

(** Run a handler on a task object, with no ledger call recorded yet. *)
Definition run {A} (m : M A) (task : ChannelInnerTask) : outcome A * World :=
  m {| self := task; calls := [] |}.

(** What a decorated handler hands back: the value its body returned, or
    a [MessageQueueException] made from the exception its body raised. *)
Inductive delivered (A : Type) : Type :=
| Answer (a : A)
| MessageQueueException (cause : exn).
Arguments Answer {A} a.
Arguments MessageQueueException {A} cause.

(** [earlgrey.message_queue_task], the library decorator under which every
    handler is declared.  The decorated coroutine runs the body; an
    exception raised by the body does not leave the handler, it is caught
    and handed back as a [MessageQueueException].  What the body did to the
    task object before it raised stays done. *)
Definition message_queue_task {A} (body : M A) : M (delivered A) :=
  fun w =>
    match body w with
    | (Returned a, w') => (Returned (Answer a), w')
    | (Raised e, w') => (Returned (MessageQueueException e), w')
    end.

(** A value held by a mapping that comes in with a request: a value
    [json.dumps] serializes, given as a [pyval], or an object of a type it
    rejects ([bytes], [set], an instance of a class, ...), or a container
    holding such an object. *)
Inductive pyobject : Type :=
| Json (v : pyval)
| Unserializable (type_name : string).

(** Any mapping with [str] keys. *)
Definition mapping : Type := list (string * pyobject).

(** The mapping as a JSON-like dict, when every value of it is one. *)
Fixpoint as_json (kwargs : mapping) : option pydict :=
  match kwargs with
  | [] => Some []
  | (k, Json v) :: kwargs' =>
      match as_json kwargs' with
      | Some d => Some ((k, v) :: d)
      | None => None
      end
  | (k, Unserializable _) :: _ => None
  end.

(** A JSON-like dict seen as a mapping. *)
Definition of_json (d : pydict) : mapping :=
  map (fun kv => (fst kv, Json (snd kv))) d.

(** [bool(s)] for a [str]: true when [s] is not empty. *)
Definition str_truthy (s : string) : bool := negb (String.eqb s "").

(** [bool(c)] for a variable holding an [int] or [None]. *)
Definition code_truthy (c : option Z) : bool :=
  match c with None => false | Some z => negb (z =? 0) end.

(** The integer held by a variable that passed the test [code_truthy]. *)
Definition code_value (c : option Z) : Z :=
  match c with None => 0 | Some z => z end.

(** The entry the block manager stores for an admitted transaction. *)
Definition pending_entry (tx_hash : string) (tx : pydict) : pydict :=
  [("txHash", PStr tx_hash); ("tx", PDict tx)].

(** Modelled from the spec: [BlockManager.add_tx] is not part of the source
    file.  The spec has the dispatcher append the entry [{hash, tx}] to the
    pending queue and do nothing else; the hash is stored under the key
    ['txHash'], where the scan of [create_icx_tx] reads it. *)
Definition add_tx (tx_hash : string) (tx : pydict) : M unit :=
  fun w =>
    let task := self w in
    let bm := _block_manager task in
    (Returned tt,
     {| self := {| _conf := _conf task;
                   _block_manager :=
                     {| tx_queue := tx_queue bm ++ [pending_entry tx_hash tx];
                        _block := _block bm |};
                   confirmed_tx_list := confirmed_tx_list task |};
        calls := calls w |}).

(** ** The handlers of [ChannelInnerTask] *)

Section Handlers.

Import message_code.

(** [tbears.util.create_hash]: from bytes to the hexadecimal digest. *)
Variable create_hash : list Byte.byte -> string.

(** [message_code.Response] *)
Variable Response : message_code.Response.

(** The transaction hash [create_icx_tx] computes for [kwargs]. *)
Definition tx_hash_of (kwargs : pydict) : string :=
  create_hash (encode (json_dumps (PDict kwargs))).

(** The duplication loop of [create_icx_tx]: every entry of the queue is
    visited and subscripted with ['txHash'], there is no early exit. *)
Fixpoint scan_tx_queue (tx_hash : string) (queue : list pydict)
    (duplicated_tx : bool) : M bool :=
  match queue with
  | [] => ret duplicated_tx
  | tx :: queue' =>
      v <- getitem tx "txHash" ;;
      scan_tx_queue tx_hash queue'
        (if str_eq_val tx_hash v then true else duplicated_tx)
  end.

(** The body of the coroutine [create_icx_tx], on a JSON-like mapping; the
    handler as decorated is [mq_create_icx_tx]. *)
Definition create_icx_tx (kwargs : pydict) : M (Z * option string) :=
  block_manager <- get_self_block_manager ;;
  let tx_hash := tx_hash_of kwargs in
  duplicated_tx <- scan_tx_queue tx_hash (tx_queue block_manager) false ;;
  duplicated_tx <-
    (if negb duplicated_tx then
       committed <- ask (Call_get_transaction tx_hash)
                        (fun block => get_transaction block tx_hash) ;;
       ret (if opt_truthy committed then true else duplicated_tx)
     else ret duplicated_tx) ;;
  if duplicated_tx then
    ret (Response.(fail_tx_invalid_duplicated_hash), None)
  else
    add_tx tx_hash kwargs ;;
    ret (Response.(success), Some ("0x" ++ tx_hash)).

(** The body of the coroutine [get_invoke_result]; the handler as decorated
    is [mq_get_invoke_result]. *)
Definition get_invoke_result (tx_hash : string) : M (Z * pydict) :=
  tx_data_json <- ask (Call_get_txresult tx_hash)
                      (fun block => get_txresult block tx_hash) ;;
  match tx_data_json with
  | None => ret (Response.(fail_tx_not_invoked), [])
  | Some result => ret (Response.(success), result)
  end.

(** The body of the coroutine [get_tx_info]; the handler as decorated is
    [mq_get_tx_info]. *)
Definition get_tx_info (tx_hash : string) : M (Z * pydict) :=
  tx_data_json <- ask (Call_get_transaction tx_hash)
                      (fun block => get_transaction block tx_hash) ;;
  match tx_data_json with
  | None => ret (Response.(fail_tx_invalid_hash_not_match), [])
  | Some tx => ret (Response.(success), tx)
  end.

(** The three ways [get_block] selects a block. *)
Inductive selection : Type :=
| SelectLast
| SelectByHash
| SelectByHeight.

(** The branch [get_block] takes, in the order of its [if]/[elif]/[else]. *)
Definition select (block_height : Z) (block_hash : string) : selection :=
  if (String.eqb block_hash "" && (block_height =? -1))%bool then SelectLast
  else if str_truthy block_hash then SelectByHash
  else SelectByHeight.

(** The selected query, and the code stored in [fail_response_code] when it
    answers [None]. *)
Definition fetch (block_height : Z) (block_hash : string)
    : M (option pydict * option Z) :=
  match select block_height block_hash with
  | SelectLast =>
      block_data_json <- ask Call_get_last_block get_last_block ;;
      ret (block_data_json,
           match block_data_json with
           | None => Some Response.(fail_wrong_block_hash)
           | Some _ => None
           end)
  | SelectByHash =>
      block_data_json <- ask (Call_get_block_by_hash block_hash)
                             (fun block => get_block_by_hash block block_hash) ;;
      ret (block_data_json,
           match block_data_json with
           | None => Some Response.(fail_wrong_block_hash)
           | Some _ => None
           end)
  | SelectByHeight =>
      block_data_json <- ask (Call_get_block_by_height block_height)
                             (fun block => get_block_by_height block block_height) ;;
      ret (block_data_json,
           match block_data_json with
           | None => Some Response.(fail_wrong_block_height)
           | Some _ => None
           end)
  end.

(** The body of the coroutine [get_block]; the handler as decorated is
    [mq_get_block]. *)
Definition get_block (block_height : Z) (block_hash : string)
    (block_data_filter tx_data_filter : string)
    : M (Z * pyval * string * list pyval) :=
  fetched <- fetch block_height block_hash ;;
  let '(block_data_json, fail_response_code) := fetched in
  if code_truthy fail_response_code then
    ret (code_value fail_response_code, PStr block_hash, "", [])
  else
    block_hash' <- subscript block_data_json "block_hash" ;;
    let block_data_json_str :=
      json_dumps (match block_data_json with
                  | Some block => PDict block
                  | None => PNone
                  end) in
    ret (Response.(success), block_hash', block_data_json_str, []).

End Handlers.

(** ** The handlers under [@message_queue_task] *)

Section DecoratedHandlers.

Variable create_hash : list Byte.byte -> string.
Variable Response : message_code.Response.






End DecoratedHandlers.

(** ** Requests and reachable states *)

(** A message delivered to the task, one constructor per handler. *)
Inductive request : Type :=
| Req_create_icx_tx (kwargs : pydict)
| Req_get_invoke_result (tx_hash : string)
| Req_get_tx_info (tx_hash : string)
| Req_get_block (block_height : Z) (block_hash : string)
    (block_data_filter tx_data_filter : string).

(** The tuple a handler returns, tagged with the handler it comes from. *)
Inductive response : Type :=
| Resp_create_icx_tx (r : Z * option string)
| Resp_get_invoke_result (r : Z * pydict)
| Resp_get_tx_info (r : Z * pydict)
| Resp_get_block (r : Z * pyval * string * list pyval).

Definition fmap {A B} (f : A -> B) (m : M A) : M B :=
  a <- m ;; ret (f a).

Section Dispatcher.

Variable create_hash : list Byte.byte -> string.
Variable Response : message_code.Response.

(** The handler a request is routed to. *)
Definition dispatch (r : request) : M response :=
  match r with
  | Req_create_icx_tx kwargs =>
      fmap Resp_create_icx_tx (create_icx_tx create_hash Response kwargs)
  | Req_get_invoke_result tx_hash =>
      fmap Resp_get_invoke_result (get_invoke_result Response tx_hash)
  | Req_get_tx_info tx_hash =>
      fmap Resp_get_tx_info (get_tx_info Response tx_hash)
  | Req_get_block block_height block_hash block_data_filter tx_data_filter =>
      fmap Resp_get_block
        (get_block Response block_height block_hash
           block_data_filter tx_data_filter)
  end.

(** The task object after the handler of [r] has run on [task], whether it
    returned or raised. *)
Definition handle (r : request) (task : ChannelInnerTask) : ChannelInnerTask :=
  self (snd (run (dispatch r) task)).

(** The states of a dispatcher built over the ledger [ledger] with an empty
    pending queue, after any sequence of requests. *)
Inductive reachable (conf : pydict) (ledger : Block) : ChannelInnerTask -> Prop :=
| reachable_init :
    reachable conf ledger (init conf {| tx_queue := []; _block := ledger |})
| reachable_handle (r : request) (task : ChannelInnerTask) :
    reachable conf ledger task -> reachable conf ledger (handle r task).

End Dispatcher.

(** ** Vocabulary of the properties *)

(** The ledger a task object talks to. *)
Definition ledger_of (task : ChannelInnerTask) : Block :=
  _block (_block_manager task).

(** The pending queue of a task object. *)
Definition queue_of (task : ChannelInnerTask) : list pydict :=
  tx_queue (_block_manager task).

(** The hash a pending entry carries, when it carries one. *)
Definition entry_hash (tx : pydict) : option pyval := dict_lookup tx "txHash".

Definition has_txHash (tx : pydict) : Prop := entry_hash tx <> None.

(** The entry [tx] is pending under the hash [h]. *)
Definition entry_has_hash (h : string) (tx : pydict) : bool :=
  match entry_hash tx with
  | Some v => str_eq_val h v
  | None => false
  end.

(** Some entry of the pending queue carries the hash [h]. *)
Definition pending (h : string) (task : ChannelInnerTask) : bool :=
  existsb (entry_has_hash h) (queue_of task).

(** The number of pending entries that carry the hash [h]. *)
Definition pending_count (h : string) (task : ChannelInnerTask) : nat :=
  List.length (filter (entry_has_hash h) (queue_of task)).

(** The ledger reports a committed transaction under the hash [h]: its
    [get_transaction] answers a true value. *)
Definition has_committed (ledger : Block) (h : string) : bool :=
  opt_truthy (get_transaction ledger h).

(** The task object with one more entry at the end of its pending queue. *)
Definition enqueue (task : ChannelInnerTask) (entry : pydict) : ChannelInnerTask :=
  {| _conf := _conf task;
     _block_manager :=
       {| tx_queue := queue_of task ++ [entry]; _block := ledger_of task |};
     confirmed_tx_list := confirmed_tx_list task |}.

(** The task object with another pending queue. *)
Definition with_queue (task : ChannelInnerTask) (queue : list pydict)
    : ChannelInnerTask :=
  {| _conf := _conf task;
     _block_manager := {| tx_queue := queue; _block := ledger_of task |};
     confirmed_tx_list := confirmed_tx_list task |}.

(** The task object with another [confirmed_tx_list]. *)
Definition with_confirmed (task : ChannelInnerTask) (l : list pyval)
    : ChannelInnerTask :=
  {| _conf := _conf task;
     _block_manager := _block_manager task;
     confirmed_tx_list := l |}.

(** The world a handler leaves when it changed nothing but made the calls
    [cs] on the ledger. *)
Definition unchanged (task : ChannelInnerTask) (cs : list ledger_call) : World :=
  {| self := task; calls := cs |}.



(** A pending entry as the admission path leaves it: it carries a [str]
    hash that the ledger does not report as committed. *)
Definition entry_admitted (ledger : Block) (tx : pydict) : Prop :=
  exists h, entry_hash tx = Some (PStr h) /\ has_committed ledger h = false.

(** The invariant of the dispatcher over the ledger [ledger]. *)
Definition queue_inv (ledger : Block) (task : ChannelInnerTask) : Prop :=
  ledger_of task = ledger /\
  Forall (entry_admitted ledger) (queue_of task) /\
  NoDup (map entry_hash (queue_of task)).

(** The call [get_block] makes on the ledger and the answer it gets, for
    each branch of the selection. *)
Definition selected_call (sel : selection) (block_height : Z)
    (block_hash : string) : ledger_call :=
  match sel with
  | SelectLast => Call_get_last_block
  | SelectByHash => Call_get_block_by_hash block_hash
  | SelectByHeight => Call_get_block_by_height block_height
  end.

Definition selected_block (sel : selection) (ledger : Block)
    (block_height : Z) (block_hash : string) : option pydict :=
  match sel with
  | SelectLast => get_last_block ledger
  | SelectByHash => get_block_by_hash ledger block_hash
  | SelectByHeight => get_block_by_height ledger block_height
  end.

Definition selected_failure (Response : message_code.Response)
    (sel : selection) : Z :=
  match sel with
  | SelectLast | SelectByHash => message_code.fail_wrong_block_hash Response
  | SelectByHeight => message_code.fail_wrong_block_height Response
  end.

(** The requests whose handlers only query the ledger. *)
Definition is_read (r : request) : bool :=
  match r with
  | Req_create_icx_tx _ => false
  | _ => true
  end.

(** The task object after a sequence of requests, handled one after the
    other. *)
Definition handle_all (create_hash : list Byte.byte -> string)
    (Response : message_code.Response)
    (rs : list request) (task : ChannelInnerTask) : ChannelInnerTask :=
  fold_left (fun t r => handle create_hash Response r t) rs task.

(** The number of submissions among a sequence of requests. *)
Definition submissions (rs : list request) : nat :=
  List.length (filter (fun r => negb (is_read r)) rs).

(** The characters [' '..'~']. *)
Definition printable (c : ascii) : bool :=
  (Nat.leb 32 (nat_of_ascii c) && Nat.leb (nat_of_ascii c) 126)%bool.

Fixpoint all_printable (s : string) : bool :=
  match s with
  | EmptyString => true
  | String c s' => (printable c && all_printable s')%bool
  end.

(** The bytes 0x20..0x7e. *)
Definition byte_printable (b : Byte.byte) : bool :=
  (N.leb 32 (Byte.to_N b) && N.leb (Byte.to_N b) 126)%bool.

(** [', '.join(parts)] *)
Fixpoint join_comma (parts : list string) : string :=
  match parts with
  | [] => ""
  | p :: parts' =>
      p ++ match parts' with [] => "" | _ :: _ => ", " ++ join_comma parts' end
  end.

(** The text [json.dumps] emits for one field of a dict. *)
Definition json_field (kv : string * pyval) : string :=
  json_str (fst kv) ++ ": " ++ json_dumps (snd kv).





(** The entries a sequence of requests leaves in the pending queue, read
    off the requests alone: one entry per submission whose hash has not
    been seen among the earlier entries [seen] and is not committed in the
    ledger, in the order of the submissions. *)
Fixpoint first_submissions (create_hash : list Byte.byte -> string)
    (ledger : Block) (seen : list string) (rs : list request) : list pydict :=
  match rs with
  | [] => []
  | Req_create_icx_tx kwargs :: rs' =>
      let h := tx_hash_of create_hash kwargs in
      if (existsb (String.eqb h) seen || has_committed ledger h)%bool then
        first_submissions create_hash ledger seen rs'
      else
        pending_entry h kwargs
        :: first_submissions create_hash ledger (h :: seen) rs'
  | _ :: rs' => first_submissions create_hash ledger seen rs'
  end.





(** ** Instances used to exercise the theorems *)

(** A stand-in for the hash primitive: the digest is the text it is given,
    so that two digests are equal exactly when the hashed bytes are. *)
Definition plain_digest (data : list Byte.byte) : string :=
  string_of_list_byte data.

(** A table of status codes: zero for success, distinct negative integers
    for the failures. *)
Definition codes : message_code.Response :=
  {| message_code.success := 0;
     message_code.fail_tx_invalid_duplicated_hash := -1;
     message_code.fail_tx_not_invoked := -2;
     message_code.fail_tx_invalid_hash_not_match := -3;
     message_code.fail_wrong_block_hash := -4;
     message_code.fail_wrong_block_height := -5 |}.

Definition block7 : pydict :=
  [("block_hash", PStr "0xabc"); ("height", PInt 7)].

(** A ledger with one committed transaction, one result and one block. *)
Definition small_ledger : Block :=
  {| get_transaction := fun h =>
       if String.eqb h "c0ffee" then Some [("from", PStr "hx1")] else None;
     get_txresult := fun h =>
       if String.eqb h "c0ffee" then Some [("status", PInt 1)] else None;
     get_last_block := Some block7;
     get_block_by_hash := fun h =>
       if String.eqb h "0xabc" then Some block7 else None;
     get_block_by_height := fun n => if n =? 7 then Some block7 else None |}.

Definition fresh_task (ledger : Block) : ChannelInnerTask :=
  init [] {| tx_queue := []; _block := ledger |}.

(** The same two fields, inserted in the two possible orders. *)
Definition tx_from_to : pydict := [("from", PStr "hx1"); ("to", PStr "hx2")].
Definition tx_to_from : pydict := [("to", PStr "hx2"); ("from", PStr "hx1")].

(** A ledger that answers an empty dict for every transaction. *)
Definition hollow_ledger : Block :=
  {| get_transaction := fun _ => Some [];
     get_txresult := fun _ => None;
     get_last_block := None;
     get_block_by_hash := fun _ => None;
     get_block_by_height := fun _ => None |}.

(** A hash that sends every text to the same digest. *)
Definition constant_digest (data : list Byte.byte) : string := "00".


(** A dispatcher that has admitted one transaction. *)
Definition one_pending : ChannelInnerTask :=
  handle plain_digest codes (Req_create_icx_tx tx_from_to)
    (fresh_task small_ledger).

(** ** Properties of the handlers *)

Section HandlerProperties.

Import message_code.

Variable create_hash : list Byte.byte -> string.
Variable Response : message_code.Response.

(** *** The duplication scan *)

(** On a queue whose entries all carry ['txHash'], the loop returns, leaves
    the world alone, and its flag tells whether some entry has the hash. *)
Lemma scan_tx_queue_returns (h : string) (queue : list pydict) :
  Forall has_txHash queue ->
  forall (dup : bool) (w : World),
    scan_tx_queue h queue dup w
    = (Returned (dup || existsb (entry_has_hash h) queue)%bool, w).
Proof.
  induction 1 as [| tx queue Htx _ IH]; intros dup w; simpl.
  - unfold ret. now rewrite orb_false_r.
  - unfold bind, getitem, has_txHash, entry_has_hash, entry_hash in *.
    destruct (dict_lookup tx "txHash") as [v |]; [| contradiction].
    unfold ret at 1. rewrite IH.
    destruct (str_eq_val h v), dup; reflexivity.
Qed.

(** The loop raises [KeyError] as soon as one entry has no ['txHash']. *)
Lemma scan_tx_queue_raises (h : string) (queue : list pydict) :
  Exists (fun tx => entry_hash tx = None) queue ->
  forall (dup : bool) (w : World),
    scan_tx_queue h queue dup w = (Raised (KeyError "txHash"), w).
Proof.
  induction queue as [| tx queue IH]; intros Hex dup w.
  - inversion Hex.
  - simpl. unfold bind, getitem.
    destruct (dict_lookup tx "txHash") as [v |] eqn:Hv.
    + unfold ret at 1. apply IH.
      inversion Hex as [? ? Hnone | ? ? Hrest]; subst; [| exact Hrest].
      unfold entry_hash in Hnone. congruence.
    + reflexivity.
Qed.

(** What [create_icx_tx] does on a queue whose entries carry ['txHash']. *)
Lemma create_icx_tx_run (task : ChannelInnerTask) (kwargs : pydict) :
  Forall has_txHash (queue_of task) ->
  run (create_icx_tx create_hash Response kwargs) task
  = if pending (tx_hash_of create_hash kwargs) task then
      (Returned (Response.(fail_tx_invalid_duplicated_hash), None),
       unchanged task [])
    else if has_committed (ledger_of task) (tx_hash_of create_hash kwargs) then
      (Returned (Response.(fail_tx_invalid_duplicated_hash), None),
       unchanged task [Call_get_transaction (tx_hash_of create_hash kwargs)])
    else
      (Returned (Response.(success), Some ("0x" ++ tx_hash_of create_hash kwargs)),
       {| self := enqueue task (pending_entry (tx_hash_of create_hash kwargs) kwargs);
          calls := [Call_get_transaction (tx_hash_of create_hash kwargs)] |}).
Proof.
  intros Hq.
  unfold run, create_icx_tx, bind at 1, get_self_block_manager. simpl.
  unfold bind at 1.
  rewrite (scan_tx_queue_returns _ _ Hq). simpl.
  unfold pending, queue_of.
  destruct (existsb _ _); simpl.
  - reflexivity.
  - unfold bind, ask, has_committed, ledger_of; simpl.
    destruct (opt_truthy _); reflexivity.
Qed.

(** *** The read-only handlers *)

Lemma get_invoke_result_run (task : ChannelInnerTask) (tx_hash : string) :
  run (get_invoke_result Response tx_hash) task
  = (Returned
       match get_txresult (ledger_of task) tx_hash with
       | None => (Response.(fail_tx_not_invoked), [])
       | Some result => (Response.(success), result)
       end,
     unchanged task [Call_get_txresult tx_hash]).
Proof.
  unfold run, get_invoke_result, bind, ask, ledger_of; simpl.
  destruct (get_txresult _ _); reflexivity.
Qed.

Lemma get_tx_info_run (task : ChannelInnerTask) (tx_hash : string) :
  run (get_tx_info Response tx_hash) task
  = (Returned
       match get_transaction (ledger_of task) tx_hash with
       | None => (Response.(fail_tx_invalid_hash_not_match), [])
       | Some tx => (Response.(success), tx)
       end,
     unchanged task [Call_get_transaction tx_hash]).
Proof.
  unfold run, get_tx_info, bind, ask, ledger_of; simpl.
  destruct (get_transaction _ _); reflexivity.
Qed.

(** *** Block selection *)

Lemma select_last (block_height : Z) (block_hash : string) :
  block_hash = "" -> block_height = -1 ->
  select block_height block_hash = SelectLast.
Proof. intros -> ->. reflexivity. Qed.

Lemma select_by_hash (block_height : Z) (block_hash : string) :
  block_hash <> "" -> select block_height block_hash = SelectByHash.
Proof.
  intros Hne. unfold select, str_truthy.
  destruct (String.eqb_spec block_hash ""); [contradiction | reflexivity].
Qed.

Lemma select_by_height (block_height : Z) (block_hash : string) :
  block_hash = "" -> block_height <> -1 ->
  select block_height block_hash = SelectByHeight.
Proof.
  intros -> Hne. unfold select, str_truthy. simpl.
  destruct (Z.eqb_spec block_height (-1)); [contradiction | reflexivity].
Qed.

(** [get_block] makes exactly one call, the selected one, and never
    changes the task object. *)
Lemma get_block_world (task : ChannelInnerTask) (block_height : Z)
    (block_hash block_data_filter tx_data_filter : string) :
  snd (run (get_block Response block_height block_hash
              block_data_filter tx_data_filter) task)
  = unchanged task
      [selected_call (select block_height block_hash) block_height block_hash].
Proof.
  unfold run, get_block, fetch, bind at 1.
  destruct (select block_height block_hash); simpl;
    unfold bind, ask, subscript, getitem; simpl;
    match goal with
    | |- context [match ?q with Some _ => _ | None => _ end] => destruct q
    end; simpl;
    repeat match goal with
    | |- context [if ?b then _ else _] => destruct b; simpl
    | |- context [match dict_lookup ?d ?k with Some _ => _ | None => _ end] =>
        destruct (dict_lookup d k); simpl
    end; reflexivity.
Qed.

(** The response of [get_block] when the selected query answers [None]. *)
Lemma get_block_none (task : ChannelInnerTask) (block_height : Z)
    (block_hash block_data_filter tx_data_filter : string) :
  selected_block (select block_height block_hash) (ledger_of task)
    block_height block_hash = None ->
  fst (run (get_block Response block_height block_hash
              block_data_filter tx_data_filter) task)
  = if selected_failure Response (select block_height block_hash) =? 0
    then Raised TypeError
    else Returned (selected_failure Response (select block_height block_hash),
                   PStr block_hash, "", []).
Proof.
  unfold run, get_block, fetch, ledger_of, bind at 1.
  destruct (select block_height block_hash); simpl;
    unfold bind, ask; simpl; intros ->; simpl;
    match goal with |- context [?c =? 0] => destruct (c =? 0) end;
    reflexivity.
Qed.

(** The response of [get_block] when the selected query answers a block. *)
Lemma get_block_some (task : ChannelInnerTask) (block_height : Z)
    (block_hash block_data_filter tx_data_filter : string) (block : pydict) :
  selected_block (select block_height block_hash) (ledger_of task)
    block_height block_hash = Some block ->
  fst (run (get_block Response block_height block_hash
              block_data_filter tx_data_filter) task)
  = match dict_lookup block "block_hash" with
    | Some h => Returned (Response.(success), h, json_dumps (PDict block), [])
    | None => Raised (KeyError "block_hash")
    end.
Proof.
  unfold run, get_block, fetch, ledger_of, bind at 1.
  destruct (select block_height block_hash); simpl;
    unfold bind, ask; simpl; intros ->; simpl; unfold getitem;
    destruct (dict_lookup block "block_hash"); reflexivity.
Qed.

(** *** Routing *)

Lemma run_fmap {A B} (f : A -> B) (m : M A) (task : ChannelInnerTask) :
  run (fmap f m) task
  = match run m task with
    | (Returned a, w) => (Returned (f a), w)
    | (Raised e, w) => (Raised e, w)
    end.
Proof.
  unfold run, fmap, bind, ret.
  destruct (m _) as [[a | e] w]; reflexivity.
Qed.

Lemma queue_scan_cases (queue : list pydict) :
  Forall has_txHash queue \/ Exists (fun tx => entry_hash tx = None) queue.
Proof.
  induction queue as [| tx queue [IH | IH]].
  - left. constructor.
  - destruct (entry_hash tx) eqn:Htx.
    + left. constructor; [unfold has_txHash; congruence | exact IH].
    + right. now constructor.
  - right. now constructor 2.
Qed.

Lemma create_icx_tx_raises (task : ChannelInnerTask) (kwargs : pydict) :
  Exists (fun tx => entry_hash tx = None) (queue_of task) ->
  run (create_icx_tx create_hash Response kwargs) task
  = (Raised (KeyError "txHash"), unchanged task []).
Proof.
  intros Hex.
  unfold run, create_icx_tx, bind at 1, get_self_block_manager. simpl.
  unfold bind at 1.
  now rewrite (scan_tx_queue_raises _ _ Hex).
Qed.

(** A request either leaves the task object as it was, or it is an
    admitted submission and appends its entry to the pending queue. *)
Lemma handle_cases (r : request) (task : ChannelInnerTask) :
  handle create_hash Response r task = task \/
  exists kwargs,
    r = Req_create_icx_tx kwargs /\
    Forall has_txHash (queue_of task) /\
    pending (tx_hash_of create_hash kwargs) task = false /\
    has_committed (ledger_of task) (tx_hash_of create_hash kwargs) = false /\
    handle create_hash Response r task
    = enqueue task (pending_entry (tx_hash_of create_hash kwargs) kwargs).
Proof.
  unfold handle. destruct r as [kwargs | h | h | n h f g]; simpl dispatch;
    rewrite run_fmap.
  - destruct (queue_scan_cases (queue_of task)) as [Hq | Hq].
    + rewrite (create_icx_tx_run _ _ Hq).
      destruct (pending _ task) eqn:Hp; [now left |].
      destruct (has_committed _ _) eqn:Hc; [now left |].
      right. exists kwargs. simpl. auto.
    + rewrite (create_icx_tx_raises _ _ Hq). now left.
  - rewrite get_invoke_result_run. now left.
  - rewrite get_tx_info_run. now left.
  - left.
    pose proof (get_block_world task n h f g) as Hw.
    destruct (run (get_block Response n h f g) task) as [[a | e] w];
      simpl in *; now rewrite Hw.
Qed.

(** *** The pending queue *)

Lemma existsb_false_filter {A} (f : A -> bool) (l : list A) :
  existsb f l = false -> filter f l = [].
Proof.
  induction l as [| a l IH]; simpl; [reflexivity |].
  destruct (f a); simpl; [discriminate | exact IH].
Qed.

Lemma entry_has_hash_iff (h : string) (tx : pydict) :
  entry_has_hash h tx = true <-> entry_hash tx = Some (PStr h).
Proof.
  unfold entry_has_hash.
  destruct (entry_hash tx) as [[| b | z | s | l | d] |]; simpl;
    try (split; [discriminate | intros [=]]).
  destruct (String.eqb_spec h s) as [-> | Hne]; split; try easy.
  intros [=]. congruence.
Qed.

Lemma pending_false_fresh (h : string) (task : ChannelInnerTask) :
  pending h task = false ->
  ~ In (Some (PStr h)) (map entry_hash (queue_of task)).
Proof.
  unfold pending. intros Hp Hin.
  apply in_map_iff in Hin as (tx & Hh & Hin).
  assert (existsb (entry_has_hash h) (queue_of task) = true) as Ht.
  { apply existsb_exists. exists tx. split; [exact Hin |].
    now apply entry_has_hash_iff. }
  congruence.
Qed.

Lemma admitted_has_txHash (ledger : Block) (queue : list pydict) :
  Forall (entry_admitted ledger) queue -> Forall has_txHash queue.
Proof.
  apply Forall_impl. intros tx (h & Hh & _). unfold has_txHash. congruence.
Qed.

Lemma queue_inv_init (conf : pydict) (ledger : Block) :
  queue_inv ledger (init conf {| tx_queue := []; _block := ledger |}).
Proof. repeat split; constructor. Qed.

Lemma queue_inv_handle (ledger : Block) (r : request) (task : ChannelInnerTask) :
  queue_inv ledger task ->
  queue_inv ledger (handle create_hash Response r task).
Proof.
  intros (Hl & Hadm & Hnd).
  destruct (handle_cases r task) as [-> | (kwargs & _ & _ & Hp & Hc & ->)].
  - now repeat split.
  - unfold queue_inv, enqueue, queue_of, ledger_of in *; simpl.
    split; [exact Hl |]. split.
    + apply Forall_app. split; [exact Hadm |].
      constructor; [| constructor].
      exists (tx_hash_of create_hash kwargs). split; [reflexivity |].
      now rewrite <- Hl.
    + rewrite map_app. apply NoDup_app; [exact Hnd | |].
      * constructor; [intros [] | constructor].
      * intros a Ha [<- | []].
        exact (pending_false_fresh _ _ Hp Ha).
Qed.

Lemma reachable_queue_inv (conf : pydict) (ledger : Block)
    (task : ChannelInnerTask) :
  reachable create_hash Response conf ledger task -> queue_inv ledger task.
Proof.
  induction 1 as [| r task _ IH].
  - apply queue_inv_init.
  - now apply queue_inv_handle.
Qed.

(** A second submission of an admitted payload meets its own entry. *)
Lemma pending_after_enqueue (task : ChannelInnerTask) (h : string)
    (kwargs : pydict) :
  pending h (enqueue task (pending_entry h kwargs)) = true.
Proof.
  unfold pending, enqueue, queue_of; simpl.
  rewrite existsb_app. simpl.
  unfold entry_has_hash, entry_hash; simpl. rewrite String.eqb_refl.
  now rewrite orb_true_r.
Qed.

Lemma pending_count_after_enqueue (task : ChannelInnerTask) (h : string)
    (kwargs : pydict) :
  pending h task = false ->
  pending_count h (enqueue task (pending_entry h kwargs)) = 1%nat.
Proof.
  unfold pending, pending_count, enqueue, queue_of; simpl. intros Hp.
  rewrite filter_app, (existsb_false_filter _ _ Hp). simpl.
  unfold entry_has_hash, entry_hash; simpl. now rewrite String.eqb_refl.
Qed.

(** *** [confirmed_tx_list] *)

(** The outcome of [get_block] is a function of the ledger alone. *)
Lemma get_block_outcome_ledger (task task' : ChannelInnerTask)
    (block_height : Z) (block_hash block_data_filter tx_data_filter : string) :
  ledger_of task' = ledger_of task ->
  fst (run (get_block Response block_height block_hash
              block_data_filter tx_data_filter) task')
  = fst (run (get_block Response block_height block_hash
                block_data_filter tx_data_filter) task).
Proof.
  intros Hl.
  destruct (selected_block (select block_height block_hash) (ledger_of task)
              block_height block_hash) as [block |] eqn:Hs.
  - rewrite (get_block_some task _ _ _ _ block Hs).
    rewrite <- Hl in Hs. now rewrite (get_block_some task' _ _ _ _ block Hs).
  - rewrite (get_block_none task _ _ _ _ Hs).
    rewrite <- Hl in Hs. now rewrite (get_block_none task' _ _ _ _ Hs).
Qed.

(** No handler reads [confirmed_tx_list]: with another list in the field
    the handler answers the same, makes the same calls, and leaves the same
    task object but for that list. *)
Lemma dispatch_with_confirmed (r : request) (task : ChannelInnerTask)
    (l : list pyval) :
  run (dispatch create_hash Response r) (with_confirmed task l)
  = (fst (run (dispatch create_hash Response r) task),
     {| self := with_confirmed (handle create_hash Response r task) l;
        calls := calls (snd (run (dispatch create_hash Response r) task)) |}).
Proof.
  unfold handle. destruct r as [kwargs | h | h | n h f g]; simpl dispatch;
    rewrite !run_fmap.
  - destruct (queue_scan_cases (queue_of task)) as [Hq | Hq].
    + rewrite (create_icx_tx_run task _ Hq).
      rewrite (create_icx_tx_run (with_confirmed task l) _ Hq).
      change (pending (tx_hash_of create_hash kwargs) (with_confirmed task l))
        with (pending (tx_hash_of create_hash kwargs) task).
      change (ledger_of (with_confirmed task l)) with (ledger_of task).
      destruct (pending _ task); [reflexivity |].
      destruct (has_committed _ _); reflexivity.
    + rewrite (create_icx_tx_raises task _ Hq).
      now rewrite (create_icx_tx_raises (with_confirmed task l) _ Hq).
  - now rewrite !get_invoke_result_run.
  - now rewrite !get_tx_info_run.
  - pose proof (get_block_world task n h f g) as Hw.
    pose proof (get_block_world (with_confirmed task l) n h f g) as Hw'.
    pose proof (get_block_outcome_ledger task (with_confirmed task l)
                  n h f g eq_refl) as Hf.
    destruct (run (get_block Response n h f g) task) as [[a | e] w];
      destruct (run (get_block Response n h f g) (with_confirmed task l))
        as [[a' | e'] w'];
      simpl in *; subst; try discriminate; now inversion Hf.
Qed.

End HandlerProperties.

(** ** The claims *)



(** C2. In every state reached from a dispatcher with an empty pending
    queue through any sequence of requests, over a ledger that stays the
    same: no two pending entries carry the same hash, and no pending hash
    is reported as committed by the ledger.  In particular a payload whose
    hash is neither pending nor committed is answered [success] the first
    time and [fail_tx_invalid_duplicated_hash] the second time, and exactly
    one pending entry then carries its hash; and whatever the first answer
    was, the second submission of a payload is rejected as a duplicate. *)
Theorem pending_queue_invariant (create_hash : list Byte.byte -> string)
    (Response : message_code.Response)
    (conf : pydict) (ledger : Block) (task : ChannelInnerTask) :
  reachable create_hash Response conf ledger task ->
  NoDup (map entry_hash (queue_of task)) /\
  (forall h, pending h task = true -> has_committed ledger h = false) /\
  (forall kwargs,
     let h := tx_hash_of create_hash kwargs in
     let submit := create_icx_tx create_hash Response kwargs in
     pending h task = false -> has_committed ledger h = false ->
     exists task1,
       fst (run submit task)
       = Returned (message_code.success Response, Some ("0x" ++ h)) /\
       self (snd (run submit task)) = task1 /\
       run submit task1
       = (Returned (message_code.fail_tx_invalid_duplicated_hash Response, None),
          unchanged task1 []) /\
       pending_count h task1 = 1%nat) /\
  (forall kwargs,
     let submit := create_icx_tx create_hash Response kwargs in
     fst (run submit (self (snd (run submit task))))
     = Returned (message_code.fail_tx_invalid_duplicated_hash Response, None)).
Proof.
  intros Hreach.
  destruct (reachable_queue_inv _ _ _ _ _ Hreach) as (Hl & Hadm & Hnd).
  split; [exact Hnd |]. split.
  - intros h Hp. unfold pending in Hp.
    apply existsb_exists in Hp as (tx & Hin & Hh).
    apply entry_has_hash_iff in Hh.
    rewrite Forall_forall in Hadm.
    destruct (Hadm tx Hin) as (h' & Hh' & Hc). congruence.
  - pose proof (admitted_has_txHash _ _ Hadm) as Hq.
    assert (forall h kwargs,
              Forall has_txHash (queue_of (enqueue task (pending_entry h kwargs))))
      as Hq'.
    { intros h kwargs. unfold enqueue, queue_of in *; simpl.
      apply Forall_app. split; [exact Hq |].
      repeat constructor. discriminate. }
    split.
    + intros kwargs h submit Hp Hc.
      exists (enqueue task (pending_entry h kwargs)).
      subst submit.
      rewrite (create_icx_tx_run create_hash Response task kwargs Hq).
      fold h. rewrite Hp, Hl, Hc. simpl.
      repeat split.
      * rewrite (create_icx_tx_run _ _ _ _ (Hq' h kwargs)).
        fold h. now rewrite pending_after_enqueue.
      * now apply pending_count_after_enqueue.
    + intros kwargs submit. subst submit.
      rewrite (create_icx_tx_run create_hash Response task kwargs Hq).
      destruct (pending _ task) eqn:Hp; simpl.
      { rewrite (create_icx_tx_run _ _ _ _ Hq). now rewrite Hp. }
      destruct (has_committed _ _) eqn:Hc; simpl.
      { rewrite (create_icx_tx_run _ _ _ _ Hq). now rewrite Hp, Hc. }
      rewrite (create_icx_tx_run _ _ _ _ (Hq' _ kwargs)).
      now rewrite pending_after_enqueue.
Qed.

Lemma pending_queue_invariant_witness :
  reachable plain_digest codes [] small_ledger one_pending /\
  NoDup (map entry_hash (queue_of one_pending)) /\
  (exists task1,
     fst (run (create_icx_tx plain_digest codes tx_to_from) one_pending)
     = Returned (0, Some ("0x" ++ tx_hash_of plain_digest tx_to_from)) /\
     self (snd (run (create_icx_tx plain_digest codes tx_to_from) one_pending))
     = task1 /\
     run (create_icx_tx plain_digest codes tx_to_from) task1
     = (Returned (-1, None), unchanged task1 []) /\
     pending_count (tx_hash_of plain_digest tx_to_from) task1 = 1%nat).
Proof.
  assert (reachable plain_digest codes [] small_ledger one_pending) as Hreach
    by (apply reachable_handle, reachable_init).
  split; [exact Hreach |].
  destruct (pending_queue_invariant plain_digest codes [] small_ledger
              one_pending Hreach) as (Hnd & _ & Htwice & _).
  split; [exact Hnd |].
  apply (Htwice tx_to_from); reflexivity.
Defined.

(** C10. [confirmed_tx_list] is dead state: it is the empty list after
    construction, no handler writes it, no handler reads it (with any other
    list in the field every request is answered the same and leaves the
    same object but for that list), and so it is the empty list in every
    state reached through the handlers. *)
Theorem confirmed_tx_list_dead (create_hash : list Byte.byte -> string)
    (Response : message_code.Response) :
  (forall conf block_manager,
     confirmed_tx_list (init conf block_manager) = []) /\
  (forall r task,
     confirmed_tx_list (handle create_hash Response r task)
     = confirmed_tx_list task) /\
  (forall r task l,
     run (dispatch create_hash Response r) (with_confirmed task l)
     = (fst (run (dispatch create_hash Response r) task),
        {| self := with_confirmed (handle create_hash Response r task) l;
           calls := calls (snd (run (dispatch create_hash Response r) task)) |})) /\
  (forall conf ledger task,
     reachable create_hash Response conf ledger task ->
     confirmed_tx_list task = []).
Proof.
  assert (forall r task,
            confirmed_tx_list (handle create_hash Response r task)
            = confirmed_tx_list task) as Hkeep.
  { intros r task.
    destruct (handle_cases create_hash Response r task)
      as [-> | (kwargs & _ & _ & _ & _ & ->)]; reflexivity. }
  split; [reflexivity |]. split; [exact Hkeep |].
  split; [apply dispatch_with_confirmed |].
  intros conf ledger task Hreach.
  induction Hreach as [| r task _ IH]; [reflexivity |].
  now rewrite Hkeep.
Qed.

Lemma confirmed_tx_list_dead_witness :
  reachable plain_digest codes [] small_ledger one_pending /\
  confirmed_tx_list one_pending = [].
Proof.
  assert (reachable plain_digest codes [] small_ledger one_pending) as Hreach
    by (apply reachable_handle, reachable_init).
  split; [exact Hreach |].
  exact (proj2 (proj2 (proj2 (confirmed_tx_list_dead plain_digest codes)))
           [] small_ledger one_pending Hreach).
Defined.



(** C4. When the selected query of [get_block] answers nothing, the
    response is [(code, block_hash, "", [])] with the hash of the request
    unchanged, [code] being [fail_wrong_block_hash] for the selections by
    hash and "latest" and [fail_wrong_block_height] for the selection by
    height.  The two codes are integers other than zero. *)
Theorem get_block_not_found (Response : message_code.Response)
    (task : ChannelInnerTask) (block_height : Z)
    (block_hash block_data_filter tx_data_filter : string) :
  message_code.fail_wrong_block_hash Response <> 0 ->
  message_code.fail_wrong_block_height Response <> 0 ->
  let out := fst (run (get_block Response block_height block_hash
                         block_data_filter tx_data_filter) task) in
  (block_hash = "" -> block_height = -1 ->
   get_last_block (ledger_of task) = None ->
   out = Returned (message_code.fail_wrong_block_hash Response,
                   PStr block_hash, "", [])) /\
  (block_hash <> "" ->
   get_block_by_hash (ledger_of task) block_hash = None ->
   out = Returned (message_code.fail_wrong_block_hash Response,
                   PStr block_hash, "", [])) /\
  (block_hash = "" -> block_height <> -1 ->
   get_block_by_height (ledger_of task) block_height = None ->
   out = Returned (message_code.fail_wrong_block_height Response,
                   PStr block_hash, "", [])).
Proof.
  intros Hhash Hheight out. subst out.
  apply Z.eqb_neq in Hhash, Hheight.
  repeat split.
  - intros Hh Hn Hnone. rewrite get_block_none;
      rewrite (select_last _ _ Hh Hn); simpl; [now rewrite Hhash | exact Hnone].
  - intros Hh Hnone. rewrite get_block_none;
      rewrite (select_by_hash _ _ Hh); simpl; [now rewrite Hhash | exact Hnone].
  - intros Hh Hn Hnone. rewrite get_block_none;
      rewrite (select_by_height _ _ Hh Hn); simpl;
      [now rewrite Hheight | exact Hnone].
Qed.

Lemma get_block_not_found_witness :
  fst (run (get_block codes 99999 "" "" "") (fresh_task small_ledger))
  = Returned (-5, PStr "", "", []).
Proof.
  refine (proj2 (proj2 (get_block_not_found codes (fresh_task small_ledger)
                          99999 "" "" "" _ _)) eq_refl _ eq_refl);
    discriminate.
Defined.

(** C5. When the selected query of [get_block] answers a block, the
    response is [(success, h, body, [])]: [h] is the ['block_hash'] field of
    that block, [body] is [json.dumps] of the block, and the list of
    filtered transactions is empty whatever the two filters are. *)
Theorem get_block_found (Response : message_code.Response)
    (task : ChannelInnerTask) (block_height : Z)
    (block_hash block_data_filter tx_data_filter : string)
    (block : pydict) (h : pyval) :
  dict_lookup block "block_hash" = Some h ->
  let out := fst (run (get_block Response block_height block_hash
                         block_data_filter tx_data_filter) task) in
  let found :=
    Returned (message_code.success Response, h, json_dumps (PDict block), []) in
  (block_hash = "" -> block_height = -1 ->
   get_last_block (ledger_of task) = Some block -> out = found) /\
  (block_hash <> "" ->
   get_block_by_hash (ledger_of task) block_hash = Some block -> out = found) /\
  (block_hash = "" -> block_height <> -1 ->
   get_block_by_height (ledger_of task) block_height = Some block ->
   out = found).
Proof.
  intros Hfield out found. subst out found.
  repeat split.
  - intros Hh Hn Hsome. rewrite (get_block_some _ _ _ _ _ _ block);
      [now rewrite Hfield | now rewrite (select_last _ _ Hh Hn)].
  - intros Hh Hsome. rewrite (get_block_some _ _ _ _ _ _ block);
      [now rewrite Hfield | now rewrite (select_by_hash _ _ Hh)].
  - intros Hh Hn Hsome. rewrite (get_block_some _ _ _ _ _ _ block);
      [now rewrite Hfield | now rewrite (select_by_height _ _ Hh Hn)].
Qed.

Lemma get_block_found_witness :
  dict_lookup block7 "block_hash" = Some (PStr "0xabc") /\
  fst (run (get_block codes 7 "" "block" "tx") (fresh_task small_ledger))
  = Returned (0, PStr "0xabc", json_dumps (PDict block7), []).
Proof.
  split; [reflexivity |].
  refine (proj2 (proj2 (get_block_found codes (fresh_task small_ledger)
                          7 "" "block" "tx" block7 (PStr "0xabc") eq_refl))
            eq_refl _ eq_refl).
  discriminate.
Defined.

(** C6. [get_invoke_result] answers [(fail_tx_not_invoked, {})] exactly
    when the ledger has no result for the hash, and [(success, result)]
    with the result of the ledger otherwise; it leaves the task object as it
    was, and the answer is the same whatever the pending queue holds. *)
Theorem get_invoke_result_lookup (Response : message_code.Response)
    (task : ChannelInnerTask) (tx_hash : string) :
  message_code.success Response <> message_code.fail_tx_not_invoked Response ->
  let answer := get_txresult (ledger_of task) tx_hash in
  let r := run (get_invoke_result Response tx_hash) task in
  (fst r = Returned (message_code.fail_tx_not_invoked Response, [])
   <-> answer = None) /\
  (forall result, answer = Some result ->
     fst r = Returned (message_code.success Response, result)) /\
  self (snd r) = task /\
  (forall queue,
     fst (run (get_invoke_result Response tx_hash) (with_queue task queue))
     = fst r).
Proof.
  intros Hcodes answer r. subst answer r.
  rewrite get_invoke_result_run. simpl.
  repeat split.
  - destruct (get_txresult _ _); [| reflexivity].
    intros [= Hc _]. contradiction.
  - now intros ->.
  - now intros result ->.
  - intros queue. now rewrite get_invoke_result_run.
Qed.

Lemma get_invoke_result_lookup_witness :
  fst (run (get_invoke_result codes (tx_hash_of plain_digest tx_from_to))
         one_pending)
  = Returned (-2, []).
Proof.
  assert (message_code.success codes <> message_code.fail_tx_not_invoked codes)
    as Hcodes by discriminate.
  destruct (get_invoke_result_lookup codes one_pending
              (tx_hash_of plain_digest tx_from_to) Hcodes)
    as ((_ & Hnone) & _).
  apply Hnone. reflexivity.
Defined.

(** C7. [get_tx_info] answers [(fail_tx_invalid_hash_not_match, {})]
    exactly when the ledger has no committed transaction for the hash, and
    [(success, tx)] with the transaction of the ledger otherwise; it leaves
    the task object as it was. *)
Theorem get_tx_info_lookup (Response : message_code.Response)
    (task : ChannelInnerTask) (tx_hash : string) :
  message_code.success Response
  <> message_code.fail_tx_invalid_hash_not_match Response ->
  let answer := get_transaction (ledger_of task) tx_hash in
  let r := run (get_tx_info Response tx_hash) task in
  (fst r = Returned (message_code.fail_tx_invalid_hash_not_match Response, [])
   <-> answer = None) /\
  (forall tx, answer = Some tx ->
     fst r = Returned (message_code.success Response, tx)) /\
  self (snd r) = task.
Proof.
  intros Hcodes answer r. subst answer r.
  rewrite get_tx_info_run. simpl.
  repeat split.
  - destruct (get_transaction _ _); [| reflexivity].
    intros [= Hc _]. contradiction.
  - now intros ->.
  - now intros tx ->.
Qed.

Lemma get_tx_info_lookup_witness :
  fst (run (get_tx_info codes "0xdeadbeef") (fresh_task small_ledger))
  = Returned (-3, []).
Proof.
  assert (message_code.success codes
          <> message_code.fail_tx_invalid_hash_not_match codes)
    as Hcodes by discriminate.
  destruct (get_tx_info_lookup codes (fresh_task small_ledger) "0xdeadbeef"
              Hcodes)
    as ((_ & Hnone) & _).
  apply Hnone. reflexivity.
Defined.

(** *** Determinism of the transaction hash *)



(** ** Further properties of the handlers *)

(** *** Truth tests and hashes *)

(** X3. [create_icx_tx] takes the answer of [get_transaction] for a truth
    value while [get_tx_info] compares it with [None]: when the ledger
    answers an empty dict for a hash that is not pending, the submission is
    admitted as new, and [get_tx_info] on the same hash reports success
    with that empty dict. *)
Theorem empty_transaction_not_duplicate
    (create_hash : list Byte.byte -> string)
    (Response : message_code.Response)
    (task : ChannelInnerTask) (kwargs : pydict) :
  Forall has_txHash (queue_of task) ->
  pending (tx_hash_of create_hash kwargs) task = false ->
  get_transaction (ledger_of task) (tx_hash_of create_hash kwargs) = Some [] ->
  fst (run (create_icx_tx create_hash Response kwargs) task)
  = Returned (message_code.success Response,
              Some ("0x" ++ tx_hash_of create_hash kwargs)) /\
  queue_of (self (snd (run (create_icx_tx create_hash Response kwargs) task)))
  = (queue_of task ++ [pending_entry (tx_hash_of create_hash kwargs) kwargs])%list /\
  fst (run (get_tx_info Response (tx_hash_of create_hash kwargs)) task)
  = Returned (message_code.success Response, []).
Proof.
  intros Hq Hp Hempty.
  rewrite (create_icx_tx_run _ _ _ _ Hq), Hp, get_tx_info_run.
  unfold has_committed. rewrite Hempty. simpl. auto.
Qed.

Lemma empty_transaction_not_duplicate_witness :
  fst (run (create_icx_tx plain_digest codes tx_from_to)
         (fresh_task hollow_ledger))
  = Returned (0, Some ("0x" ++ tx_hash_of plain_digest tx_from_to)) /\
  fst (run (get_tx_info codes (tx_hash_of plain_digest tx_from_to))
         (fresh_task hollow_ledger))
  = Returned (0, []).
Proof.
  destruct (empty_transaction_not_duplicate plain_digest codes
              (fresh_task hollow_ledger) tx_from_to)
    as (Hsubmit & _ & Hinfo).
  - constructor.
  - reflexivity.
  - reflexivity.
  - split; [exact Hsubmit | exact Hinfo].
Defined.

(** X4. Duplicates are detected by hash alone: when two payloads have the
    same hash, the second is rejected with
    [fail_tx_invalid_duplicated_hash] once the first has been submitted,
    whatever the first answer was and however the two payloads differ. *)
Theorem same_hash_rejected (create_hash : list Byte.byte -> string)
    (Response : message_code.Response)
    (task : ChannelInnerTask) (kwargs1 kwargs2 : pydict) :
  Forall has_txHash (queue_of task) ->
  tx_hash_of create_hash kwargs1 = tx_hash_of create_hash kwargs2 ->
  fst (run (create_icx_tx create_hash Response kwargs2)
         (self (snd (run (create_icx_tx create_hash Response kwargs1) task))))
  = Returned (message_code.fail_tx_invalid_duplicated_hash Response, None).
Proof.
  intros Hq Hhash.
  rewrite (create_icx_tx_run _ _ task kwargs1 Hq).
  destruct (pending _ task) eqn:Hp; simpl.
  { rewrite (create_icx_tx_run _ _ _ _ Hq), <- Hhash. now rewrite Hp. }
  destruct (has_committed _ _) eqn:Hc; simpl.
  { rewrite (create_icx_tx_run _ _ _ _ Hq), <- Hhash. now rewrite Hp, Hc. }
  rewrite create_icx_tx_run.
  - rewrite <- Hhash. now rewrite pending_after_enqueue.
  - unfold enqueue, queue_of in *; simpl.
    apply Forall_app. split; [exact Hq |].
    repeat constructor. discriminate.
Qed.

Lemma same_hash_rejected_witness :
  tx_from_to <> [("data", PInt 7)] /\
  fst (run (create_icx_tx constant_digest codes [("data", PInt 7)])
         (self (snd (run (create_icx_tx constant_digest codes tx_from_to)
                       (fresh_task small_ledger)))))
  = Returned (-1, None).
Proof.
  split; [discriminate |].
  apply (same_hash_rejected constant_digest codes (fresh_task small_ledger)
           tx_from_to [("data", PInt 7)]).
  - constructor.
  - reflexivity.
Defined.

(** *** What the handlers leave alone *)

Lemma handle_all_cons (create_hash : list Byte.byte -> string)
    (Response : message_code.Response)
    (r : request) (rs : list request) (task : ChannelInnerTask) :
  handle_all create_hash Response (r :: rs) task
  = handle_all create_hash Response rs (handle create_hash Response r task).
Proof. reflexivity. Qed.

(** One request appends at most one entry, and only if it is a
    submission; the ledger and the configuration stay the same objects. *)
Lemma handle_frame (create_hash : list Byte.byte -> string)
    (Response : message_code.Response)
    (r : request) (task : ChannelInnerTask) :
  exists suffix,
    queue_of (handle create_hash Response r task)
    = (queue_of task ++ suffix)%list /\
    (List.length suffix <= if is_read r then 0 else 1)%nat /\
    ledger_of (handle create_hash Response r task) = ledger_of task /\
    _conf (handle create_hash Response r task) = _conf task.
Proof.
  destruct (handle_cases create_hash Response r task)
    as [-> | (kwargs & -> & _ & _ & _ & ->)].
  - exists []. rewrite app_nil_r. repeat split.
    destruct (is_read r); simpl; lia.
  - eexists. repeat split. simpl. lia.
Qed.

(** The same over a sequence of requests. *)
Lemma handle_all_frame (create_hash : list Byte.byte -> string)
    (Response : message_code.Response)
    (rs : list request) (task : ChannelInnerTask) :
  exists suffix,
    queue_of (handle_all create_hash Response rs task)
    = (queue_of task ++ suffix)%list /\
    (List.length suffix <= submissions rs)%nat /\
    ledger_of (handle_all create_hash Response rs task) = ledger_of task /\
    _conf (handle_all create_hash Response rs task) = _conf task.
Proof.
  revert task. induction rs as [| r rs IH]; intros task.
  - exists []. rewrite app_nil_r. repeat split. apply Nat.le_0_l.
  - rewrite handle_all_cons.
    destruct (IH (handle create_hash Response r task))
      as (suffix' & Hq' & Hlen' & Hl' & Hc').
    destruct (handle_frame create_hash Response r task)
      as (suffix & Hq & Hlen & Hl & Hc).
    exists (suffix ++ suffix')%list.
    rewrite Hq', Hq, Hl', Hl, Hc', Hc, app_assoc, length_app.
    repeat split.
    unfold submissions in *. simpl.
    destruct (is_read r); simpl in *; lia.
Qed.

(** X5. The handlers only ever append to the pending queue.  After any
    sequence of requests the queue is the old queue, entries and order
    kept, followed by at most one new entry per submission in the
    sequence; the ledger object and the configuration of the task are the
    ones it started with. *)
Theorem handlers_only_append (create_hash : list Byte.byte -> string)
    (Response : message_code.Response)
    (rs : list request) (task : ChannelInnerTask) :
  exists suffix,
    queue_of (handle_all create_hash Response rs task)
    = (queue_of task ++ suffix)%list /\
    (List.length suffix <= submissions rs)%nat /\
    ledger_of (handle_all create_hash Response rs task) = ledger_of task /\
    _conf (handle_all create_hash Response rs task) = _conf task.
Proof. apply handle_all_frame. Qed.

(** The outcome of a handler mapped into [response]. *)
Lemma fst_run_fmap {A B} (f : A -> B) (m : M A) (task : ChannelInnerTask) :
  fst (run (fmap f m) task)
  = match fst (run m task) with
    | Returned a => Returned (f a)
    | Raised e => Raised e
    end.
Proof.
  rewrite run_fmap. destruct (run m task) as [[a | e] w]; reflexivity.
Qed.

(** The answer to a query is a function of the ledger alone. *)
Lemma read_outcome_ledger (create_hash : list Byte.byte -> string)
    (Response : message_code.Response)
    (r : request) (task task' : ChannelInnerTask) :
  is_read r = true ->
  ledger_of task' = ledger_of task ->
  fst (run (dispatch create_hash Response r) task')
  = fst (run (dispatch create_hash Response r) task).
Proof.
  intros Hread Hl.
  destruct r as [kwargs | h | h | n h f g]; [discriminate | | |];
    simpl dispatch; rewrite !fst_run_fmap.
  - now rewrite !get_invoke_result_run, Hl.
  - now rewrite !get_tx_info_run, Hl.
  - now rewrite (get_block_outcome_ledger Response task task' n h f g Hl).
Qed.

(** X6. The three query handlers are read-only and their answers cannot be
    changed through the dispatcher: a query leaves the task object exactly
    as it was, also when [get_block] raises, and after any sequence of
    requests, submissions included, it is answered as it was before. *)
Theorem queries_stable (create_hash : list Byte.byte -> string)
    (Response : message_code.Response)
    (rs : list request) (task : ChannelInnerTask) (r : request) :
  is_read r = true ->
  handle create_hash Response r task = task /\
  fst (run (dispatch create_hash Response r)
         (handle_all create_hash Response rs task))
  = fst (run (dispatch create_hash Response r) task).
Proof.
  intros Hread. split.
  - destruct (handle_cases create_hash Response r task)
      as [Hsame | (kwargs & -> & _)]; [exact Hsame | discriminate].
  - apply read_outcome_ledger; [exact Hread |].
    destruct (handle_all_frame create_hash Response rs task)
      as (_ & _ & _ & Hl & _).
    exact Hl.
Qed.

Lemma queries_stable_witness :
  fst (run (dispatch plain_digest codes (Req_get_tx_info "c0ffee"))
         (handle_all plain_digest codes
            [Req_create_icx_tx tx_from_to; Req_get_block 7 "" "" ""]
            (fresh_task small_ledger)))
  = fst (run (dispatch plain_digest codes (Req_get_tx_info "c0ffee"))
           (fresh_task small_ledger)).
Proof.
  apply (queries_stable plain_digest codes
           [Req_create_icx_tx tx_from_to; Req_get_block 7 "" "" ""]
           (fresh_task small_ledger) (Req_get_tx_info "c0ffee")).
  reflexivity.
Defined.

(** *** The serialized text *)

(** Induction on Python values, with the hypothesis for every item of a
    list and every value of a dict. *)
Lemma pyval_nested_ind (P : pyval -> Prop) :
  P PNone ->
  (forall b, P (PBool b)) ->
  (forall z, P (PInt z)) ->
  (forall s, P (PStr s)) ->
  (forall items, Forall P items -> P (PList items)) ->
  (forall fields, Forall (fun kv => P (snd kv)) fields -> P (PDict fields)) ->
  forall v, P v.
Proof.
  intros HNone HBool HInt HStr HList HDict.
  fix IH 1. intros [| b | z | s | items | fields].
  - exact HNone.
  - apply HBool.
  - apply HInt.
  - apply HStr.
  - apply HList. induction items as [| x items IHitems]; constructor;
      [apply IH | exact IHitems].
  - apply HDict. induction fields as [| [k x] fields IHfields]; constructor;
      [apply IH | exact IHfields].
Qed.

Lemma string_app_assoc (s1 s2 s3 : string) :
  (s1 ++ s2) ++ s3 = s1 ++ (s2 ++ s3).
Proof.
  induction s1 as [| c s1 IH]; simpl; [reflexivity | now rewrite IH].
Qed.

Lemma json_dumps_list (items : list pyval) :
  json_dumps (PList items) = "[" ++ join_comma (map json_dumps items) ++ "]".
Proof.
  unfold json_dumps at 1. fold json_dumps. do 2 f_equal.
  induction items as [| x items IH]; [reflexivity |].
  cbn -[String.append json_dumps]. rewrite IH.
  destruct items; reflexivity.
Qed.

Lemma json_dumps_dict (fields : pydict) :
  json_dumps (PDict fields) = "{" ++ join_comma (map json_field fields) ++ "}".
Proof.
  unfold json_dumps at 1. fold json_dumps. do 2 f_equal.
  induction fields as [| [k x] fields IH]; [reflexivity |].
  cbn -[String.append json_str json_dumps json_field]. rewrite IH.
  change (json_field (k, x)) with (json_str k ++ ": " ++ json_dumps x).
  rewrite !string_app_assoc.
  destruct fields; reflexivity.
Qed.

Lemma all_printable_app (s1 s2 : string) :
  all_printable (s1 ++ s2) = (all_printable s1 && all_printable s2)%bool.
Proof.
  induction s1 as [| c s1 IH]; simpl; [reflexivity |].
  now rewrite IH, andb_assoc.
Qed.

Lemma escape_char_printable (c : ascii) :
  all_printable (escape_char c) = true.
Proof.
  destruct c as [b0 b1 b2 b3 b4 b5 b6 b7].
  destruct b0, b1, b2, b3, b4, b5, b6, b7; reflexivity.
Qed.

Lemma escape_string_printable (s : string) :
  all_printable (escape_string s) = true.
Proof.
  induction s as [| c s IH]; simpl; [reflexivity |].
  now rewrite all_printable_app, escape_char_printable, IH.
Qed.

Lemma json_str_printable (s : string) : all_printable (json_str s) = true.
Proof.
  unfold json_str. simpl.
  now rewrite all_printable_app, escape_string_printable.
Qed.

Lemma string_of_uint_printable (d : Decimal.uint) :
  all_printable (NilEmpty.string_of_uint d) = true.
Proof. induction d; simpl; auto. Qed.

Lemma json_int_printable (z : Z) : all_printable (json_int z) = true.
Proof.
  unfold json_int, NilZero.string_of_int, NilZero.string_of_uint.
  destruct (Z.to_int z) as [d | d]; destruct d; simpl;
    auto using string_of_uint_printable.
Qed.

Lemma join_comma_printable (parts : list string) :
  Forall (fun p => all_printable p = true) parts ->
  all_printable (join_comma parts) = true.
Proof.
  induction 1 as [| p parts Hp Hparts IH]; [reflexivity |].
  destruct parts as [| q parts].
  - simpl join_comma. now rewrite all_printable_app, Hp.
  - change (join_comma (p :: q :: parts))
      with (p ++ ", " ++ join_comma (q :: parts)).
    now rewrite !all_printable_app, Hp, IH.
Qed.

Lemma json_dumps_printable (v : pyval) : all_printable (json_dumps v) = true.
Proof.
  induction v as [| b | z | s | items IH | fields IH] using pyval_nested_ind.
  - reflexivity.
  - destruct b; reflexivity.
  - apply json_int_printable.
  - apply json_str_printable.
  - rewrite json_dumps_list. simpl. rewrite all_printable_app.
    rewrite join_comma_printable; [reflexivity |].
    apply Forall_map. exact IH.
  - rewrite json_dumps_dict. simpl. rewrite all_printable_app.
    rewrite join_comma_printable; [reflexivity |].
    apply Forall_map. revert IH. apply Forall_impl. intros [k x] Hx.
    unfold json_field. simpl fst. simpl snd in *.
    now rewrite !all_printable_app, json_str_printable, Hx.
Qed.

Lemma byte_printable_ascii (c : ascii) :
  byte_printable (byte_of_ascii c) = printable c.
Proof.
  destruct c as [b0 b1 b2 b3 b4 b5 b6 b7].
  destruct b0, b1, b2, b3, b4, b5, b6, b7; reflexivity.
Qed.

Lemma encode_printable (s : string) :
  forallb byte_printable (encode s) = all_printable s.
Proof.
  unfold encode, list_byte_of_string.
  induction s as [| c s IH]; [reflexivity |].
  simpl. now rewrite byte_printable_ascii, IH.
Qed.

(** X7. The bytes handed to the hash, and the body of a block response,
    are plain ASCII: whatever the value, every byte of the encoded
    [json.dumps] text lies in 0x20..0x7e, non-ASCII and control characters
    of the strings having been escaped. *)
Theorem hashed_bytes_printable (v : pyval) :
  forallb byte_printable (encode (json_dumps v)) = true.
Proof. now rewrite encode_printable, json_dumps_printable. Qed.

(** *** Key order in the serialized text *)







(** *** The identifier returned and the identifier stored *)

Lemma prefixed_neq (h : string) : "0x" ++ h <> h.
Proof.
  intros Heq. apply (f_equal String.length) in Heq. simpl in Heq. lia.
Qed.

Lemma pending_enqueue (task : ChannelInnerTask) (h' h : string)
    (kwargs : pydict) :
  pending h' (enqueue task (pending_entry h kwargs))
  = (pending h' task || String.eqb h' h)%bool.
Proof.
  unfold pending, enqueue, queue_of; simpl.
  rewrite existsb_app. simpl.
  unfold entry_has_hash, entry_hash; simpl. now rewrite orb_false_r.
Qed.

(** X9. An admitted payload is stored, and was looked up in the ledger,
    under the bare hash, while the caller is handed the hash with the
    prefix [0x]: the string returned is not the hash, the new entry is
    pending under the hash, and the returned string is pending afterwards
    only if it already was. *)
Theorem returned_identifier_prefixed
    (create_hash : list Byte.byte -> string)
    (Response : message_code.Response)
    (task : ChannelInnerTask) (kwargs : pydict) :
  Forall has_txHash (queue_of task) ->
  pending (tx_hash_of create_hash kwargs) task = false ->
  has_committed (ledger_of task) (tx_hash_of create_hash kwargs) = false ->
  let h := tx_hash_of create_hash kwargs in
  let r := run (create_icx_tx create_hash Response kwargs) task in
  exists payload,
    fst r = Returned (message_code.success Response, Some payload) /\
    payload = "0x" ++ h /\
    payload <> h /\
    calls (snd r) = [Call_get_transaction h] /\
    pending h (self (snd r)) = true /\
    pending payload (self (snd r)) = pending payload task.
Proof.
  intros Hq Hp Hc h r. subst r.
  rewrite (create_icx_tx_run _ _ _ _ Hq), Hp, Hc. fold h. simpl.
  exists ("0x" ++ h). repeat split.
  - apply prefixed_neq.
  - apply pending_after_enqueue.
  - rewrite pending_enqueue.
    destruct (String.eqb_spec ("0x" ++ h) h) as [Heq | _].
    + now apply prefixed_neq in Heq.
    + apply orb_false_r.
Qed.

Lemma returned_identifier_prefixed_witness :
  exists payload,
    fst (run (create_icx_tx plain_digest codes tx_to_from) one_pending)
    = Returned (0, Some payload) /\
    payload <> tx_hash_of plain_digest tx_to_from.
Proof.
  destruct (returned_identifier_prefixed plain_digest codes one_pending
              tx_to_from)
    as (payload & Hr & _ & Hne & _).
  - repeat constructor. discriminate.
  - reflexivity.
  - reflexivity.
  - exists payload. split; [exact Hr | exact Hne].
Defined.

(** *** The queue after a sequence of requests *)

Lemma handle_create_icx_tx (create_hash : list Byte.byte -> string)
    (Response : message_code.Response)
    (task : ChannelInnerTask) (kwargs : pydict) :
  Forall has_txHash (queue_of task) ->
  handle create_hash Response (Req_create_icx_tx kwargs) task
  = if (pending (tx_hash_of create_hash kwargs) task
        || has_committed (ledger_of task) (tx_hash_of create_hash kwargs))%bool
    then task
    else enqueue task (pending_entry (tx_hash_of create_hash kwargs) kwargs).
Proof.
  intros Hq. unfold handle. simpl dispatch.
  rewrite run_fmap, (create_icx_tx_run _ _ _ _ Hq).
  destruct (pending _ task); [reflexivity |].
  destruct (has_committed _ _); reflexivity.
Qed.

Lemma handle_all_first_submissions (create_hash : list Byte.byte -> string)
    (Response : message_code.Response) (rs : list request) :
  forall (task : ChannelInnerTask) (seen : list string),
    Forall has_txHash (queue_of task) ->
    (forall h, pending h task = existsb (String.eqb h) seen) ->
    queue_of (handle_all create_hash Response rs task)
    = (queue_of task
       ++ first_submissions create_hash (ledger_of task) seen rs)%list.
Proof.
  induction rs as [| r rs IH]; intros task seen Hq Hseen.
  - simpl. now rewrite app_nil_r.
  - rewrite handle_all_cons.
    destruct r as [kwargs | h | h | n h f g].
    + rewrite (handle_create_icx_tx _ _ _ _ Hq). simpl first_submissions.
      rewrite <- Hseen.
      destruct (pending _ task || has_committed _ _)%bool;
        [now apply IH |].
      rewrite (IH _ (tx_hash_of create_hash kwargs :: seen)).
      * unfold enqueue, queue_of, ledger_of; simpl.
        now rewrite <- app_assoc.
      * unfold enqueue, queue_of in *; simpl.
        apply Forall_app. split; [exact Hq |].
        repeat constructor. discriminate.
      * intros h'. rewrite pending_enqueue, Hseen. simpl.
        apply orb_comm.
    + destruct (handle_cases create_hash Response (Req_get_invoke_result h) task)
        as [-> | (kwargs & [=] & _)]. now apply IH.
    + destruct (handle_cases create_hash Response (Req_get_tx_info h) task)
        as [-> | (kwargs & [=] & _)]. now apply IH.
    + destruct (handle_cases create_hash Response (Req_get_block n h f g) task)
        as [-> | (kwargs & [=] & _)]. now apply IH.
Qed.

(** X10. First submission wins.  Starting from an empty queue, the pending
    queue after any sequence of requests is the list of the entries of the
    submissions whose hash is not committed in the ledger and was not
    submitted earlier in the sequence, in the order they came; queries in
    between change nothing. *)
Theorem queue_is_first_submissions (create_hash : list Byte.byte -> string)
    (Response : message_code.Response)
    (conf : pydict) (ledger : Block) (rs : list request) :
  queue_of (handle_all create_hash Response rs
              (init conf {| tx_queue := []; _block := ledger |}))
  = first_submissions create_hash ledger [] rs.
Proof.
  rewrite (handle_all_first_submissions create_hash Response rs _ []).
  - reflexivity.
  - constructor.
  - reflexivity.
Qed.

(** *** The serialized text determines the value *)

















(** *** Determinism of the transaction hash, continued *)





(** *** Exceptions and the decorator *)

Lemma run_message_queue_task {A} (body : M A) (task : ChannelInnerTask) :
  run (message_queue_task body) task
  = match run body task with
    | (Returned a, w) => (Returned (Answer a), w)
    | (Raised e, w) => (Returned (MessageQueueException e), w)
    end.
Proof. reflexivity. Qed.

(** Where the body returns, the decorated handler returns the same value
    and leaves the same world. *)
Lemma message_queue_task_returned {A} (body : M A) (task : ChannelInnerTask)
    (a : A) (w : World) :
  run body task = (Returned a, w) ->
  run (message_queue_task body) task = (Returned (Answer a), w).
Proof. intros H. now rewrite run_message_queue_task, H. Qed.


Lemma as_json_of_json (d : pydict) : as_json (of_json d) = Some d.
Proof.
  induction d as [| [k v] d IH]; simpl; [reflexivity | now rewrite IH].
Qed.




